(** * pyrogram/handlers/error_handler.py : the [ErrorHandler] interception shim

    A shallow embedding of the class [ErrorHandler] and of the two patch
    points it installs itself on:

    - [asyncio.BaseEventLoop.run_in_executor] (or the [run_in_executor]
      attribute of one loop object), replaced by [ErrorHandler.run_in_executor];
    - [sys.excepthook], replaced by [functools.partial(self.except_hook, flag)].

    Python code is embedded in a state-and-exception monad over a [World]
    that carries the state seen by foreign code (the user callback, the saved
    originals) and the chronological list of calls made to foreign code. *)

From Stdlib Require Import String List Bool Arith Lia.
Import ListNotations.
Open Scope string_scope.
Open Scope list_scope.
Set Implicit Arguments.

(** ** The collaborators the file imports

    [from pyrogram import errors] and the client object are not part of the
    file: the error taxonomy and the objects flowing through the shim are
    parameters of the development. *)

(** What an object stores under an attribute name: a string, or any other
    object. *)
Inductive Attr (O : Type) : Type :=
| AStr (s : string)
| AOther (o : O).

Arguments AStr {O} s.
Arguments AOther {O} o.

Class Taxonomy : Type := {
  (** opaque Python objects: executors, callables, results, tracebacks *)
  Obj : Type;
  (** event loops, compared by identity *)
  Loop : Type;
  Loop_eq_dec : forall a b : Loop, {a = b} + {a <> b};
  Client : Type;
  (** [client.loop] *)
  client_loop : Client -> Loop;
  (** exception classes, [issubclass c d] as in Python *)
  ExcClass : Type;
  issubclass : ExcClass -> ExcClass -> bool;
  (** the [__module__] entry found along the MRO of a class, [None] for the
      built-in classes, which have none in their dictionaries *)
  class_module : ExcClass -> option (Attr Obj);
  (** [__module__] as found on an opaque object, if any *)
  obj_module : Obj -> option (Attr Obj);
  (** [needle in o] on an object that is not a string: the answer of its
      membership test, or [None] when it supports none and the interpreter
      raises [TypeError] *)
  obj_contains : Obj -> string -> option bool;
  BaseException : ExcClass;
  IndexError : ExcClass;
  TypeError : ExcClass;
  (** the traceback and the message of an exception of the given class that
      the interpreter raises itself while running the body of [except_hook] *)
  raised_traceback : ExcClass -> Obj;
  raised_message : ExcClass -> Obj;
  (** [errors.RPCError] and [errors.FloodWait] *)
  RPCError : ExcClass;
  FloodWait : ExcClass
}.

Section Values.
Context `{T : Taxonomy}.

(** An exception instance.  [exc_dict_module] is a [__module__] entry of the
    instance's own [__dict__], which shadows the one of its class. *)
Record Exn : Type := mkExn {
  exc_class : ExcClass;
  exc_dict_module : option (Attr Obj);
  exc_traceback : option Obj;
  exc_payload : option Obj
}.

Inductive PyVal : Type :=
| VNone
| VObj (o : Obj)
| VClass (c : ExcClass)
| VExc (e : Exn).

Inductive Outcome (A : Type) : Type :=
| Return (a : A)
| Raise (e : Exn).

End Values.

Arguments Return {T A} a.
Arguments Raise {T A} e.

(** The saved originals, captured in the class body:
    [original_run_in_executor = asyncio.BaseEventLoop.run_in_executor] (here
    together with the [await] on the future it returns) and
    [original_except_hook = sys.excepthook].  They are foreign code acting on
    a state [Ext] of their own. *)
Class Runtime `{T : Taxonomy} : Type := {
  Ext : Type;
  original_run_in_executor :
    Loop -> list PyVal -> list (string * PyVal) -> Ext -> Outcome PyVal * Ext;
  original_except_hook : list PyVal -> Ext -> Outcome PyVal * Ext
}.

Section Shim.
Context `{R : Runtime}.

(** ** Worlds and the monad *)

Inductive Event : Type :=
| EvOriginalRunInExecutor (l : Loop) (args : list PyVal) (kwargs : list (string * PyVal))
| EvCallback (c : Client) (exc : PyVal)
| EvOriginalExceptHook (args : list PyVal).

Record World : Type := mkWorld {
  ext : Ext;
  trace : list Event
}.

Definition M (A : Type) : Type := World -> Outcome A * World.

Definition ret {A} (a : A) : M A := fun w => (Return a, w).

Definition raise {A} (e : Exn) : M A := fun w => (Raise e, w).

Definition bind {A B} (m : M A) (k : A -> M B) : M B :=
  fun w =>
    match m w with
    | (Return a, w') => k a w'
    | (Raise e, w') => (Raise e, w')
    end.

(** [try: body / except BaseException as e: handler e]; every raised object
    is an instance of [BaseException], so the handler sees every failure. *)
Definition try_except {A} (body : M A) (handler : Exn -> M A) : M A :=
  fun w =>
    match body w with
    | (Return a, w') => (Return a, w')
    | (Raise e, w') => handler e w'
    end.

(** A call to foreign code: the call is recorded, then the callee runs on the
    foreign state. *)
Definition foreign {A} (ev : Event) (f : Ext -> Outcome A * Ext) : M A :=
  fun w =>
    let (o, x) := f (ext w) in
    (o, {| ext := x; trace := trace w ++ [ev] |}).

End Shim.

Notation "x <- m ;; k" := (bind m (fun x => k))
  (at level 61, m at next level, right associativity).

Section ErrorHandler.
Context `{R : Runtime}.

(** ** Python primitives used by the class *)

(** [isinstance(exc, cls)], the test of [except cls:]. *)
Definition isinstance (exc : Exn) (cls : ExcClass) : bool :=
  issubclass (exc_class exc) cls.

(** [isinstance(exc, classes)] for a tuple, the test of [except classes:]. *)
Definition isinstance_any (exc : Exn) (classes : list ExcClass) : bool :=
  existsb (isinstance exc) classes.

(** [needle in hay] on strings. *)
Fixpoint contains (needle hay : string) : bool :=
  String.prefix needle hay ||
  match hay with
  | EmptyString => false
  | String _ rest => contains needle rest
  end.

(** [getattr(v, '__module__', '')]: the object stored under that name, which
    need not be a string, or the empty string when there is none. *)
Definition getattr_module (v : PyVal) : Attr Obj :=
  match v with
  | VNone => AStr ""
  | VObj o =>
      match obj_module o with Some m => m | None => AStr "" end
  | VClass c =>
      match class_module c with Some m => m | None => AStr "builtins" end
  | VExc e =>
      match exc_dict_module e with
      | Some m => m
      | None =>
          match class_module (exc_class e) with Some m => m | None => AStr "" end
      end
  end.

(** [needle in hay]: substring search in a string, the membership test of
    any other object, [None] when the interpreter raises [TypeError]. *)
Definition membership (needle : string) (hay : Attr Obj) : option bool :=
  match hay with
  | AStr s => Some (contains needle s)
  | AOther o => obj_contains o needle
  end.

(** An exception that the interpreter raises itself in the body of the hook:
    a fresh instance, with its traceback. *)
Definition raised_by_interpreter (c : ExcClass) : Exn :=
  {| exc_class := c; exc_dict_module := None;
     exc_traceback := Some (raised_traceback c);
     exc_payload := Some (raised_message c) |}.

(** The exception raised by [args[1]] on a tuple that is too short. *)
Definition tuple_index_error : Exn := raised_by_interpreter IndexError.

(** The exception raised by [needle in hay] on an object that supports no
    membership test. *)
Definition not_iterable_error : Exn := raised_by_interpreter TypeError.

(** The value of an operation of the interpreter, or its [TypeError]. *)
Definition or_type_error {A} (o : option A) : M A :=
  match o with
  | Some a => ret a
  | None => raise not_iterable_error
  end.

(** [args[i]] on a tuple. *)
Definition tuple_item (args : list PyVal) (i : nat) : M PyVal :=
  match nth_error args i with
  | Some v => ret v
  | None => raise tuple_index_error
  end.

(** [sys.exc_info()] while [e] is being handled:
    [(type(e), e, e.__traceback__)]. *)
Definition exc_info (e : Exn) : list PyVal :=
  [VClass (exc_class e); VExc e;
   match exc_traceback e with Some tb => VObj tb | None => VNone end].

(** ** The class *)

Record ErrorHandler : Type := mkErrorHandler {
  client : Client;
  callback : Client -> PyVal -> Ext -> Outcome PyVal * Ext;
  exceptions_to_catch : list ExcClass
}.

(** [ErrorHandler.original_run_in_executor(loop, *args, **kwargs)], awaited. *)
Definition call_original_run_in_executor
    (l : Loop) (args : list PyVal) (kwargs : list (string * PyVal)) : M PyVal :=
  foreign (EvOriginalRunInExecutor l args kwargs)
          (original_run_in_executor l args kwargs).

(** [self.original_except_hook] applied to the unpacked tuple [args]. *)
Definition call_original_except_hook (args : list PyVal) : M PyVal :=
  foreign (EvOriginalExceptHook args) (original_except_hook args).

(** [self.callback(self.client, exc)]. *)
Definition call_callback (self : ErrorHandler) (exc : PyVal) : M PyVal :=
  foreign (EvCallback (client self) exc) (callback self (client self) exc).

(** [async def run_in_executor(self, *args, **kwargs)], run to completion. *)
Definition run_in_executor (self : ErrorHandler)
    (args : list PyVal) (kwargs : list (string * PyVal)) : M PyVal :=
  try_except
    (call_original_run_in_executor (client_loop (client self)) args kwargs)
    (fun exc =>
       if isinstance exc FloodWait then raise exc
       else if isinstance_any exc (exceptions_to_catch self) then
         _ <- call_callback self (VExc exc) ;; ret VNone
       else raise exc).

(** ['pyrogram.errors' in getattr(exc, '__module__', '')], the test of the
    hook on the origin of an exception. *)
Definition origin_test (exc : PyVal) : option bool :=
  membership "pyrogram.errors" (getattr_module exc).

(** The origin test evaluates to [True]. *)
Definition protocol_origin (exc : PyVal) : bool :=
  match origin_test exc with
  | Some found => found
  | None => false
  end.


(** [def except_hook(self, catch_all=False, *args)]. *)
Definition except_hook (self : ErrorHandler) (catch_all : bool)
    (args : list PyVal) : M PyVal :=
  if catch_all then
    try_except
      (exc <- tuple_item args 1 ;; _ <- call_callback self exc ;; ret VNone)
      (fun e => _ <- call_original_except_hook (exc_info e) ;; ret VNone)
  else
    exc <- tuple_item args 1 ;;
    found <- or_type_error (origin_test exc) ;;
    if found then
      try_except
        (_ <- call_callback self exc ;; ret VNone)
        (fun e => _ <- call_original_except_hook (exc_info e) ;; ret VNone)
    else
      _ <- call_original_except_hook args ;; ret VNone.

(** ** The patch points of the process *)

(** What [sys.excepthook] holds. *)
Inductive ExceptHookSlot : Type :=
| OriginalExceptHook
| PartialExceptHook (self : ErrorHandler) (catch_all : bool).

(** What a [run_in_executor] attribute holds: the function of asyncio, or
    the bound method [self.run_in_executor] (bare, or under
    [functools.partial] with no argument, which calls it the same way). *)
Inductive RunInExecutorSlot : Type :=
| OriginalRunInExecutor
| WrappedRunInExecutor (self : ErrorHandler).

Record Process : Type := mkProcess {
  sys_excepthook : ExceptHookSlot;
  BaseEventLoop_run_in_executor : RunInExecutorSlot;
  (** the [run_in_executor] entry of a loop object's own [__dict__] *)
  loop_run_in_executor : Loop -> option RunInExecutorSlot
}.

(** [def __init__(self, client, callback, catch_all=False)]: the new
    instance and the process it leaves behind. *)
Definition init (client0 : Client)
    (callback0 : Client -> PyVal -> Ext -> Outcome PyVal * Ext)
    (catch_all : bool) (p : Process) : ErrorHandler * Process :=
  let exceptions := [RPCError] in
  if catch_all then
    let self := {| client := client0; callback := callback0;
                   exceptions_to_catch := exceptions ++ [BaseException] |} in
    (self,
     {| sys_excepthook := PartialExceptHook self true;
        BaseEventLoop_run_in_executor := WrappedRunInExecutor self;
        loop_run_in_executor := loop_run_in_executor p |})
  else
    let self := {| client := client0; callback := callback0;
                   exceptions_to_catch := exceptions |} in
    (self,
     {| sys_excepthook := PartialExceptHook self false;
        BaseEventLoop_run_in_executor := BaseEventLoop_run_in_executor p;
        loop_run_in_executor :=
          fun l => if Loop_eq_dec l (client_loop client0)
                   then Some (WrappedRunInExecutor self)
                   else loop_run_in_executor p l |}).

(** [loop.run_in_executor]: the instance dictionary first, then the class. *)
Definition lookup_run_in_executor (p : Process) (l : Loop) : RunInExecutorSlot :=
  match loop_run_in_executor p l with
  | Some f => f
  | None => BaseEventLoop_run_in_executor p
  end.

(** [await loop.run_in_executor] on the unpacked [args] and [kwargs], in process [p]. *)
Definition loop_dispatch (p : Process) (l : Loop)
    (args : list PyVal) (kwargs : list (string * PyVal)) : M PyVal :=
  match lookup_run_in_executor p l with
  | OriginalRunInExecutor => call_original_run_in_executor l args kwargs
  | WrappedRunInExecutor self => run_in_executor self args kwargs
  end.

(** [sys.excepthook] applied to the unpacked tuple [args], in process [p]. *)
Definition process_excepthook (p : Process) (args : list PyVal) : M PyVal :=
  match sys_excepthook p with
  | OriginalExceptHook => call_original_except_hook args
  | PartialExceptHook self catch_all => except_hook self catch_all args
  end.

(** ** Reading traces *)

Definition callback_calls (evs : list Event) : list (Client * PyVal) :=
  flat_map (fun ev => match ev with EvCallback c v => [(c, v)] | _ => [] end) evs.

Definition original_dispatch_calls (evs : list Event)
    : list (Loop * list PyVal * list (string * PyVal)) :=
  flat_map (fun ev => match ev with
                      | EvOriginalRunInExecutor l a k => [(l, a, k)]
                      | _ => []
                      end) evs.

Definition original_hook_calls (evs : list Event) : list (list PyVal) :=
  flat_map (fun ev => match ev with EvOriginalExceptHook a => [a] | _ => [] end) evs.

(** The events of the guarded callback call: the callback, then the saved
    hook if the callback raised, on the information of what it raised. *)
Definition guarded_callback_events (self : ErrorHandler) (v : PyVal) (x : Ext)
    : list Event :=
  EvCallback (client self) v ::
  match fst (callback self (client self) v x) with
  | Return _ => []
  | Raise e => [EvOriginalExceptHook (exc_info e)]
  end.

(** The calls made by a run [r] started in world [w]. *)
Definition events_since {A} (w : World) (r : Outcome A * World) : list Event :=
  skipn (length (trace w)) (trace (snd r)).

(** The instance built by [ErrorHandler(client, callback, catch_all)]. *)
Definition new_handler (client0 : Client)
    (callback0 : Client -> PyVal -> Ext -> Outcome PyVal * Ext)
    (catch_all : bool) (p : Process) : ErrorHandler :=
  fst (init client0 callback0 catch_all p).

(** The loops on which [loop.run_in_executor] reaches the wrapper of an
    instance built with [catch_all]: every loop without an attribute of its
    own under the global patch, the client's loop under the scoped one. *)
Definition patched_loop (client0 : Client) (catch_all : bool)
    (p : Process) (l : Loop) : Prop :=
  if catch_all then loop_run_in_executor p l = None
  else l = client_loop client0.

End ErrorHandler.

(** ** A sample process

    A small taxonomy in the shape of the library's ([FloodWait] below [Flood]
    below [RPCError], all defined in modules under [pyrogram.errors]), a
    built-in error, and a foreign class whose module name only looks like the
    library's.  The theorems below are exercised on it. *)

Module Demo.

Inductive DemoClass : Type :=
| KBaseException | KException | KIndexError | KTypeError | KValueError
| KRPCError | KBadRequest | KFlood | KFloodWait | KLookalike.

Definition DemoClass_eqb (a b : DemoClass) : bool :=
  match a, b with
  | KBaseException, KBaseException | KException, KException
  | KIndexError, KIndexError | KTypeError, KTypeError
  | KValueError, KValueError
  | KRPCError, KRPCError | KBadRequest, KBadRequest
  | KFlood, KFlood | KFloodWait, KFloodWait | KLookalike, KLookalike => true
  | _, _ => false
  end.

Definition base (c : DemoClass) : option DemoClass :=
  match c with
  | KBaseException => None
  | KException => Some KBaseException
  | KIndexError | KTypeError | KValueError | KRPCError | KLookalike =>
      Some KException
  | KBadRequest | KFlood => Some KRPCError
  | KFloodWait => Some KFlood
  end.

Fixpoint subclass_upto (depth : nat) (c d : DemoClass) : bool :=
  DemoClass_eqb c d ||
  match depth, base c with
  | S depth', Some b => subclass_upto depth' b d
  | _, _ => false
  end.

Definition demo_module (c : DemoClass) : option (Attr string) :=
  match c with
  | KRPCError => Some (AStr "pyrogram.errors.rpc_error")
  | KBadRequest => Some (AStr "pyrogram.errors.exceptions.bad_request_400")
  | KFlood | KFloodWait => Some (AStr "pyrogram.errors.exceptions.flood_420")
  | KLookalike => Some (AStr "plugins.notpyrogram.errorsheet")
  | _ => None
  end.

(** The opaque objects of the sample are named by strings; none of them
    supports a membership test. *)
Definition demo_contains (o : string) (needle : string) : option bool := None.

#[global] Instance demo_taxonomy : Taxonomy := {|
  Obj := string;
  Loop := nat;
  Loop_eq_dec := Nat.eq_dec;
  Client := nat;
  client_loop := fun c => 100 + c;
  ExcClass := DemoClass;
  issubclass := subclass_upto 4;
  class_module := demo_module;
  obj_module := fun _ => None;
  obj_contains := demo_contains;
  BaseException := KBaseException;
  IndexError := KIndexError;
  TypeError := KTypeError;
  raised_traceback := fun _ => "tb-except-hook";
  raised_message := fun c =>
    match c with
    | KIndexError => "tuple index out of range"
    | _ => "argument is not iterable"
    end;
  RPCError := KRPCError;
  FloodWait := KFloodWait
|}.

Definition flood_wait : Exn :=
  mkExn KFloodWait None (Some "tb-flood") (Some "FLOOD_WAIT_12").
Definition bad_request : Exn :=
  mkExn KBadRequest None (Some "tb-bad") (Some "PEER_ID_INVALID").
Definition value_error : Exn :=
  mkExn KValueError None (Some "tb-value") (Some "not a number").
Definition callback_failure : Exn :=
  mkExn KValueError None (Some "tb-callback") (Some "callback broke").

(** Instances that carry a [__module__] of their own in their [__dict__]:
    an error of the library relabelled, a built-in error labelled as the
    library's, and a built-in error whose label is a number. *)
Definition shadowed : Exn :=
  mkExn KBadRequest (Some (AStr "app.models")) (Some "tb-shadowed")
        (Some "PEER_ID_INVALID").
Definition disguised : Exn :=
  mkExn KValueError (Some (AStr "pyrogram.errors")) (Some "tb-disguised")
        (Some "not a number").
Definition numbered : Exn :=
  mkExn KValueError (Some (AOther "42")) (Some "tb-numbered")
        (Some "not a number").

(** The unit of work decides what the primitive does; the foreign state
    counts the foreign calls that ran. *)
Definition demo_run_in_executor (l : nat) (args : list PyVal)
    (kwargs : list (string * PyVal)) (x : nat) : Outcome PyVal * nat :=
  match nth_error args 1 with
  | Some (VObj "flood") => (Raise flood_wait, S x)
  | Some (VObj "bad") => (Raise bad_request, S x)
  | Some (VObj "value") => (Raise value_error, S x)
  | _ => (Return (VObj "done"), S x)
  end.

#[global] Instance demo_runtime : Runtime := {|
  Ext := nat;
  original_run_in_executor := demo_run_in_executor;
  original_except_hook := fun _ x => (Return VNone, S x)
|}.

Definition alice : Client := 7.

Definition other_loop : Loop := 3.

Definition quiet_callback (c : Client) (exc : PyVal) (x : Ext)
    : Outcome PyVal * Ext :=
  (Return VNone, S x).

Definition broken_callback (c : Client) (exc : PyVal) (x : Ext)
    : Outcome PyVal * Ext :=
  (Raise callback_failure, S x).

Definition fresh_process : Process :=
  {| sys_excepthook := OriginalExceptHook;
     BaseEventLoop_run_in_executor := OriginalRunInExecutor;
     loop_run_in_executor := fun _ => None |}.

Definition fresh_world : World := {| ext := 0; trace := [] |}.

Definition work (name : string) : list PyVal := [VNone; VObj name].

End Demo.

(** * Properties *)

Section Properties.
Context `{R : Runtime}.

Lemma callback_calls_app (a b : list Event) :
  callback_calls (a ++ b) = callback_calls a ++ callback_calls b.
Proof. apply flat_map_app. Qed.

Lemma original_dispatch_calls_app (a b : list Event) :
  original_dispatch_calls (a ++ b)
  = original_dispatch_calls a ++ original_dispatch_calls b.
Proof. apply flat_map_app. Qed.

Lemma original_hook_calls_app (a b : list Event) :
  original_hook_calls (a ++ b) = original_hook_calls a ++ original_hook_calls b.
Proof. apply flat_map_app. Qed.

(** What a foreign call leaves behind. *)
Lemma foreign_eq {A} (ev : Event) (f : Ext -> Outcome A * Ext) (w : World) :
  foreign ev f w
  = (fst (f (ext w)), {| ext := snd (f (ext w)); trace := trace w ++ [ev] |}).
Proof. unfold foreign. destruct (f (ext w)); reflexivity. Qed.

(** [prefix] decides "starts with". *)
Lemma prefix_true_iff (p s : string) :
  String.prefix p s = true <-> exists post, s = (p ++ post)%string.
Proof.
  revert s. induction p as [|a p IH]; intros s.
  - destruct s; simpl; split; intros; try reflexivity; eexists; reflexivity.
  - destruct s as [|b s]; simpl.
    + split; [discriminate | intros [post H]; discriminate].
    + destruct (Ascii.ascii_dec a b) as [->|Hab].
      * rewrite IH. split; intros [post H]; exists post.
        -- now rewrite H.
        -- now inversion H.
      * split; [discriminate | intros [post H]; simpl in H; congruence].
Qed.

(** [contains] decides "is a substring of". *)
Lemma contains_true_iff (needle hay : string) :
  contains needle hay = true <-> exists pre post, hay = (pre ++ needle ++ post)%string.
Proof.
  induction hay as [|a hay IH]; cbn [contains].
  - rewrite orb_false_r, prefix_true_iff. split.
    + intros [post H]. exists "", post. exact H.
    + intros [pre [post H]]. destruct pre; simpl in H.
      * exists post. exact H.
      * discriminate.
  - rewrite orb_true_iff, prefix_true_iff, IH. split.
    + intros [[post H] | [pre [post H]]].
      * exists "", post. exact H.
      * exists (String a pre), post. simpl. now rewrite H.
    + intros [pre [post H]]. destruct pre as [|b pre]; simpl in H.
      * left. exists post. exact H.
      * right. injection H as _ H. exists pre, post. exact H.
Qed.

(** Every module at or below [pyrogram.errors] passes the origin test. *)
Lemma protocol_origin_library_module (e : Exn) (sub : string) :
  exc_dict_module e = None ->
  class_module (exc_class e) = Some (AStr ("pyrogram.errors" ++ sub)%string) ->
  protocol_origin (VExc e) = true.
Proof.
  intros Hd Hm. unfold protocol_origin, origin_test, getattr_module.
  rewrite Hd, Hm. cbn [membership].
  apply contains_true_iff. exists "", sub. reflexivity.
Qed.

(** A call on a patched loop runs the wrapper of the new instance. *)
Lemma loop_dispatch_after_init (c : Client) cb (catch_all : bool)
    (p : Process) (l : Loop) args kwargs :
  patched_loop c catch_all p l ->
  loop_dispatch (snd (init c cb catch_all p)) l args kwargs
  = run_in_executor (new_handler c cb catch_all p) args kwargs.
Proof.
  unfold patched_loop, loop_dispatch, lookup_run_in_executor, new_handler, init.
  destruct catch_all; simpl; intros H.
  - rewrite H. reflexivity.
  - subst l. destruct (Loop_eq_dec _ _); [reflexivity | contradiction].
Qed.

Lemma client_new_handler (c : Client) cb catch_all (p : Process) :
  client (new_handler c cb catch_all p) = c.
Proof. unfold new_handler, init. destruct catch_all; reflexivity. Qed.

Lemma callback_new_handler (c : Client) cb catch_all (p : Process) :
  callback (new_handler c cb catch_all p) = cb.
Proof. unfold new_handler, init. destruct catch_all; reflexivity. Qed.

(** The wrapper, unfolded on the outcome of the saved primitive. *)
Lemma run_in_executor_eq (self : ErrorHandler) args kwargs (w : World) :
  run_in_executor self args kwargs w
  = let l := client_loop (client self) in
    let w1 := {| ext := snd (original_run_in_executor l args kwargs (ext w));
                 trace := trace w ++ [EvOriginalRunInExecutor l args kwargs] |} in
    match fst (original_run_in_executor l args kwargs (ext w)) with
    | Return result => (Return result, w1)
    | Raise exc =>
        if isinstance exc FloodWait then (Raise exc, w1)
        else if isinstance_any exc (exceptions_to_catch self) then
          (match fst (callback self (client self) (VExc exc) (ext w1)) with
           | Return _ => Return VNone
           | Raise e => Raise e
           end,
           {| ext := snd (callback self (client self) (VExc exc) (ext w1));
              trace := trace w1 ++ [EvCallback (client self) (VExc exc)] |})
        else (Raise exc, w1)
    end.
Proof.
  unfold run_in_executor, try_except, call_original_run_in_executor.
  rewrite foreign_eq. cbv zeta.
  destruct (fst (original_run_in_executor _ args kwargs (ext w))) as [r|exc];
    [reflexivity|].
  destruct (isinstance exc FloodWait); [reflexivity|].
  destruct (isinstance_any exc (exceptions_to_catch self)); [|reflexivity].
  unfold bind, call_callback, ret. rewrite foreign_eq.
  destruct (fst (callback self _ _ _)); reflexivity.
Qed.

(** The part of the hook shared by its two branches: the callback under
    [try], the saved hook on [sys.exc_info()] under [except]. *)
Lemma guarded_callback_eq (self : ErrorHandler) (v : PyVal) (w : World) :
  try_except
    (_ <- call_callback self v ;; ret VNone)
    (fun e => _ <- call_original_except_hook (exc_info e) ;; ret VNone) w
  = let w1 := {| ext := snd (callback self (client self) v (ext w));
                 trace := trace w ++ [EvCallback (client self) v] |} in
    match fst (callback self (client self) v (ext w)) with
    | Return _ => (Return VNone, w1)
    | Raise e =>
        (match fst (original_except_hook (exc_info e) (ext w1)) with
         | Return _ => Return VNone
         | Raise e' => Raise e'
         end,
         {| ext := snd (original_except_hook (exc_info e) (ext w1));
            trace := trace w1 ++ [EvOriginalExceptHook (exc_info e)] |})
    end.
Proof.
  unfold try_except, bind, call_callback, call_original_except_hook, ret.
  rewrite foreign_eq. cbv zeta.
  destruct (fst (callback self (client self) v (ext w))) as [r|e]; [reflexivity|].
  rewrite foreign_eq.
  destruct (fst (original_except_hook (exc_info e) _)); reflexivity.
Qed.

(** The hook on the three arguments the interpreter passes. *)
Lemma except_hook_eq (self : ErrorHandler) (catch_all : bool)
    (t v tb : PyVal) (w : World) :
  except_hook self catch_all [t; v; tb] w
  = if catch_all || protocol_origin v then
      try_except
        (_ <- call_callback self v ;; ret VNone)
        (fun e => _ <- call_original_except_hook (exc_info e) ;; ret VNone) w
    else
      match origin_test v with
      | Some _ =>
          (match fst (original_except_hook [t; v; tb] (ext w)) with
           | Return _ => Return VNone
           | Raise e' => Raise e'
           end,
           {| ext := snd (original_except_hook [t; v; tb] (ext w));
              trace := trace w ++ [EvOriginalExceptHook [t; v; tb]] |})
      | None => (Raise not_iterable_error, w)
      end.
Proof.
  unfold except_hook. destruct catch_all; simpl orb.
  - reflexivity.
  - unfold bind at 1. simpl. unfold protocol_origin.
    destruct (origin_test v) as [[|]|]; unfold bind at 1; cbn [or_type_error ret raise].
    + reflexivity.
    + unfold bind, call_original_except_hook, ret. rewrite foreign_eq.
      destruct (fst (original_except_hook _ _)); reflexivity.
    + reflexivity.
Qed.

(** ** The wrapped dispatch *)


(** C3.  Whatever [catch_all] the instance was built with, when the saved
    primitive fails with a [FloodWait] the wrapped dispatch raises that same
    exception, and the user callback is not invoked. *)
Theorem C3_flood_wait_reraised
    (c : Client) cb (catch_all : bool) (p : Process)
    (args : list PyVal) (kwargs : list (string * PyVal)) (w : World)
    (exc : Exn) (x : Ext) :
  original_run_in_executor (client_loop c) args kwargs (ext w) = (Raise exc, x) ->
  isinstance exc FloodWait = true ->
  let r := run_in_executor (new_handler c cb catch_all p) args kwargs w in
  r = (Raise exc,
       {| ext := x;
          trace := trace w ++ [EvOriginalRunInExecutor (client_loop c) args kwargs] |})
  /\ callback_calls (trace (snd r)) = callback_calls (trace w).
Proof.
  intros Ho Hf r. subst r.
  rewrite run_in_executor_eq, client_new_handler. cbv zeta.
  rewrite Ho. cbn [fst snd]. rewrite Hf. split; [reflexivity|].
  simpl. rewrite callback_calls_app. simpl. apply app_nil_r.
Qed.

(** C4.  When the saved primitive fails with an exception that is not a
    [FloodWait] and is an instance of one of [exceptions_to_catch], and the
    callback returns, the callback is invoked exactly once, on
    [(client, exception)], the exception is not propagated, and the wrapped
    call returns [None]. *)
Theorem C4_matched_failure_goes_to_callback
    (self : ErrorHandler)
    (args : list PyVal) (kwargs : list (string * PyVal)) (w : World)
    (exc : Exn) (x1 : Ext) (v : PyVal) (x2 : Ext) :
  original_run_in_executor (client_loop (client self)) args kwargs (ext w)
  = (Raise exc, x1) ->
  isinstance exc FloodWait = false ->
  isinstance_any exc (exceptions_to_catch self) = true ->
  callback self (client self) (VExc exc) x1 = (Return v, x2) ->
  let r := run_in_executor self args kwargs w in
  r = (Return VNone,
       {| ext := x2;
          trace := trace w ++
                   [EvOriginalRunInExecutor (client_loop (client self)) args kwargs;
                    EvCallback (client self) (VExc exc)] |})
  /\ callback_calls (trace (snd r))
     = callback_calls (trace w) ++ [(client self, VExc exc)].
Proof.
  intros Ho Hf Hm Hc r. subst r.
  rewrite run_in_executor_eq. cbv zeta.
  rewrite Ho. cbn [fst snd]. rewrite Hf, Hm. cbn [ext].
  rewrite Hc. simpl. rewrite <- app_assoc. simpl. split; [reflexivity|].
  rewrite callback_calls_app. reflexivity.
Qed.

(** C5.  When the saved primitive succeeds, the wrapped dispatch returns its
    result as it is and the user callback is not invoked. *)
Theorem C5_success_returned_unchanged
    (self : ErrorHandler)
    (args : list PyVal) (kwargs : list (string * PyVal)) (w : World)
    (result : PyVal) (x : Ext) :
  original_run_in_executor (client_loop (client self)) args kwargs (ext w)
  = (Return result, x) ->
  let r := run_in_executor self args kwargs w in
  r = (Return result,
       {| ext := x;
          trace := trace w ++
                   [EvOriginalRunInExecutor (client_loop (client self)) args kwargs] |})
  /\ callback_calls (trace (snd r)) = callback_calls (trace w).
Proof.
  intros Ho r. subst r.
  rewrite run_in_executor_eq. cbv zeta.
  rewrite Ho. simpl. split; [reflexivity|].
  rewrite callback_calls_app. simpl. apply app_nil_r.
Qed.

(** C9.  On the dispatch path a failure of the callback is not suppressed:
    when the callback raises while handling an intercepted exception, its own
    exception comes out of the wrapped dispatch, and the saved fallback
    handler is not invoked. *)
Theorem C9_callback_failure_propagates_from_dispatch
    (self : ErrorHandler)
    (args : list PyVal) (kwargs : list (string * PyVal)) (w : World)
    (exc : Exn) (x1 : Ext) (failure : Exn) (x2 : Ext) :
  original_run_in_executor (client_loop (client self)) args kwargs (ext w)
  = (Raise exc, x1) ->
  isinstance exc FloodWait = false ->
  isinstance_any exc (exceptions_to_catch self) = true ->
  callback self (client self) (VExc exc) x1 = (Raise failure, x2) ->
  let r := run_in_executor self args kwargs w in
  r = (Raise failure,
       {| ext := x2;
          trace := trace w ++
                   [EvOriginalRunInExecutor (client_loop (client self)) args kwargs;
                    EvCallback (client self) (VExc exc)] |})
  /\ original_hook_calls (trace (snd r)) = original_hook_calls (trace w).
Proof.
  intros Ho Hf Hm Hc r. subst r.
  rewrite run_in_executor_eq. cbv zeta.
  rewrite Ho. cbn [fst snd]. rewrite Hf, Hm. cbn [ext].
  rewrite Hc. simpl. rewrite <- app_assoc. simpl. split; [reflexivity|].
  rewrite original_hook_calls_app. simpl. apply app_nil_r.
Qed.

(** ** The fallback hook *)

Lemma guarded_callback_trace (self : ErrorHandler) (v : PyVal) (w : World) :
  trace (snd (try_except
                (_ <- call_callback self v ;; ret VNone)
                (fun e => _ <- call_original_except_hook (exc_info e) ;; ret VNone)
                w))
  = trace w ++ guarded_callback_events self v (ext w).
Proof.
  rewrite guarded_callback_eq. unfold guarded_callback_events. cbv zeta.
  destruct (fst (callback self (client self) v (ext w))); simpl.
  - reflexivity.
  - now rewrite <- app_assoc.
Qed.

Lemma callback_calls_guarded (self : ErrorHandler) (v : PyVal) (x : Ext) :
  callback_calls (guarded_callback_events self v x) = [(client self, v)].
Proof.
  unfold guarded_callback_events.
  destruct (fst (callback self (client self) v x)); reflexivity.
Qed.




(** C8.  A construction, with either flag and in any process, leaves
    [sys.excepthook] holding the hook of the new instance; a second
    construction leaves what it would have left without the first, and the
    hook of the process is then the hook of the second instance alone. *)
Theorem C8_last_construction_owns_excepthook
    (c1 : Client) cb1 (catch_all1 : bool)
    (c2 : Client) cb2 (catch_all2 : bool) (p : Process) :
  sys_excepthook (snd (init c1 cb1 catch_all1 p))
  = PartialExceptHook (new_handler c1 cb1 catch_all1 p) catch_all1
  /\ sys_excepthook (snd (init c2 cb2 catch_all2 (snd (init c1 cb1 catch_all1 p))))
     = PartialExceptHook (new_handler c2 cb2 catch_all2 p) catch_all2
  /\ sys_excepthook (snd (init c2 cb2 catch_all2 (snd (init c1 cb1 catch_all1 p))))
     = sys_excepthook (snd (init c2 cb2 catch_all2 p))
  /\ forall args,
       process_excepthook
         (snd (init c2 cb2 catch_all2 (snd (init c1 cb1 catch_all1 p)))) args
       = except_hook (new_handler c2 cb2 catch_all2 p) catch_all2 args.
Proof.
  unfold process_excepthook, new_handler, init.
  destruct catch_all1, catch_all2; cbn; repeat split; reflexivity.
Qed.

(** C10 (as the code has it).  In the hook bound to [catch_all=False] the
    origin test is a substring search in what the lookup of [__module__] on
    the exception finds, an entry of the instance's own dictionary coming
    before the one of its class: when a string is found, the callback is
    invoked exactly when the text [pyrogram.errors] occurs somewhere in it;
    when nothing is found, the callback is not invoked, the saved handler is
    called on the arguments of the hook, and the hook raises only if that
    handler does. *)
Theorem C10_origin_test_on_found_module
    (self : ErrorHandler) (t : PyVal) (e : Exn) (tb : PyVal) (w : World) :
  let args := [t; VExc e; tb] in
  let r := except_hook self false args w in
  let found := match exc_dict_module e with
               | Some a => Some a
               | None => class_module (exc_class e)
               end in
  exists evs,
    trace (snd r) = trace w ++ evs
    /\ (forall m, found = Some (AStr m) ->
          ((exists pre post, m = (pre ++ "pyrogram.errors" ++ post)%string)
           <-> callback_calls evs = [(client self, VExc e)]))
    /\ (found = None ->
          evs = [EvOriginalExceptHook args]
          /\ callback_calls evs = []
          /\ fst r = match fst (original_except_hook args (ext w)) with
                     | Return _ => Return VNone
                     | Raise e' => Raise e'
                     end).
Proof.
  cbv zeta. rewrite except_hook_eq. cbn [orb].
  unfold protocol_origin, origin_test, getattr_module.
  destruct (exc_dict_module e) as [a|].
  - destruct a as [m|o]; cbn [membership].
    + destruct (contains "pyrogram.errors" m) eqn:Hc.
      * eexists. split; [apply guarded_callback_trace|].
        rewrite callback_calls_guarded. split; [|discriminate].
        intros m' Hm. injection Hm as <-. rewrite <- contains_true_iff, Hc.
        split; reflexivity.
      * eexists. split; [reflexivity|]. split; [|discriminate].
        intros m' Hm. injection Hm as <-. rewrite <- contains_true_iff, Hc.
        simpl. split; discriminate.
    + destruct (obj_contains o "pyrogram.errors") as [[|]|].
      * eexists. split; [apply guarded_callback_trace|].
        split; discriminate.
      * eexists. split; [reflexivity|]. split; discriminate.
      * exists []. split; [symmetry; apply app_nil_r|]. split; discriminate.
  - destruct (class_module (exc_class e)) as [a|].
    + destruct a as [m|o]; cbn [membership].
      * destruct (contains "pyrogram.errors" m) eqn:Hc.
        -- eexists. split; [apply guarded_callback_trace|].
           rewrite callback_calls_guarded. split; [|discriminate].
           intros m' Hm. injection Hm as <-. rewrite <- contains_true_iff, Hc.
           split; reflexivity.
        -- eexists. split; [reflexivity|]. split; [|discriminate].
           intros m' Hm. injection Hm as <-. rewrite <- contains_true_iff, Hc.
           simpl. split; discriminate.
      * destruct (obj_contains o "pyrogram.errors") as [[|]|].
        -- eexists. split; [apply guarded_callback_trace|].
           split; discriminate.
        -- eexists. split; [reflexivity|]. split; discriminate.
        -- exists []. split; [symmetry; apply app_nil_r|]. split; discriminate.
    + cbn [membership]. change (contains "pyrogram.errors" "") with false.
      cbv iota.
      eexists. split; [reflexivity|]. split; [discriminate|].
      intros _. repeat split.
Qed.

(** C1 (as the code has it).  When the hook invokes the callback (always
    under [catch_all=True], on a positive origin test otherwise) and the
    callback raises, the saved fallback handler is invoked once, on
    [sys.exc_info()] of the handler block, that is on the type, value and
    traceback of the exception the callback raised; the hook then returns
    [None], or raises what the saved handler raised: the exception of the
    callback does not come out of the hook. *)
Theorem C1_callback_failure_reported_to_original_hook
    (self : ErrorHandler) (catch_all : bool) (t v tb : PyVal) (w : World)
    (failure : Exn) (x : Ext) :
  catch_all || protocol_origin v = true ->
  callback self (client self) v (ext w) = (Raise failure, x) ->
  except_hook self catch_all [t; v; tb] w
  = (match fst (original_except_hook (exc_info failure) x) with
     | Return _ => Return VNone
     | Raise e' => Raise e'
     end,
     {| ext := snd (original_except_hook (exc_info failure) x);
        trace := trace w ++ [EvCallback (client self) v;
                             EvOriginalExceptHook (exc_info failure)] |}).
Proof.
  intros Hg Hc. rewrite except_hook_eq, Hg, guarded_callback_eq. cbv zeta.
  rewrite Hc. cbn [fst snd ext trace]. now rewrite <- app_assoc.
Qed.

End Properties.

(** * The properties on the sample process *)

(** C1, as stated, fails.  A handler built with [catch_all=True] and a
    callback that raises receives a [BadRequest] through the hook: the
    callback is invoked and raises, and the saved fallback handler is then
    called on the information of the failure of the callback, not on the
    information of the [BadRequest] the hook was given. *)
Lemma C1_counterexample :
  let p := snd (init Demo.alice Demo.broken_callback true Demo.fresh_process) in
  let args := exc_info Demo.bad_request in
  let r := process_excepthook p args Demo.fresh_world in
  callback_calls (trace (snd r)) = [(Demo.alice, VExc Demo.bad_request)]
  /\ fst (Demo.broken_callback Demo.alice (VExc Demo.bad_request) 0)
     = Raise Demo.callback_failure
  /\ original_hook_calls (trace (snd r)) = [exc_info Demo.callback_failure]
  /\ ~ In args (original_hook_calls (trace (snd r))).
Proof.
  cbv zeta. repeat split.
  intros [H | []]. discriminate H.
Qed.

(** The amended C1 on the same run: the hook returns [None] after reporting
    the failure of the callback to the saved handler. *)
Lemma C1_witness :
  (true || protocol_origin (VExc Demo.bad_request) = true
   /\ Demo.broken_callback Demo.alice (VExc Demo.bad_request) 0
      = (Raise Demo.callback_failure, 1))
  /\ except_hook (new_handler Demo.alice Demo.broken_callback true Demo.fresh_process)
       true (exc_info Demo.bad_request) Demo.fresh_world
     = (Return VNone,
        {| ext := 2;
           trace := [EvCallback Demo.alice (VExc Demo.bad_request);
                     EvOriginalExceptHook (exc_info Demo.callback_failure)] |}).
Proof.
  split; [split; reflexivity|].
  apply (@C1_callback_failure_reported_to_original_hook Demo.demo_taxonomy Demo.demo_runtime
           (new_handler Demo.alice Demo.broken_callback true Demo.fresh_process) true
           (@VClass Demo.demo_taxonomy Demo.KBadRequest) (VExc Demo.bad_request)
           (@VObj Demo.demo_taxonomy "tb-bad")
           Demo.fresh_world Demo.callback_failure 1); reflexivity.
Defined.


(** C3 on a work item on which the primitive raises [FloodWait]. *)
Lemma C3_witness :
  (Demo.demo_run_in_executor (client_loop Demo.alice) (Demo.work "flood") [] 0
   = (Raise Demo.flood_wait, 1)
   /\ isinstance Demo.flood_wait FloodWait = true)
  /\ let r := run_in_executor
                (new_handler Demo.alice Demo.quiet_callback true Demo.fresh_process)
                (Demo.work "flood") [] Demo.fresh_world in
     r = (Raise Demo.flood_wait,
          {| ext := 1;
             trace := [] ++ [EvOriginalRunInExecutor (client_loop Demo.alice) (Demo.work "flood") []] |})
     /\ callback_calls (trace (snd r)) = callback_calls [].
Proof.
  split; [split; reflexivity|].
  apply (@C3_flood_wait_reraised Demo.demo_taxonomy Demo.demo_runtime Demo.alice Demo.quiet_callback true
           Demo.fresh_process (Demo.work "flood") [] Demo.fresh_world
           Demo.flood_wait 1); reflexivity.
Defined.

(** C4 on a [BadRequest] and a callback that returns, under the scoped patch. *)
Lemma C4_witness :
  let self := new_handler Demo.alice Demo.quiet_callback false Demo.fresh_process in
  (Demo.demo_run_in_executor (client_loop Demo.alice) (Demo.work "bad") [] 0
   = (Raise Demo.bad_request, 1)
   /\ isinstance Demo.bad_request FloodWait = false
   /\ isinstance_any Demo.bad_request (exceptions_to_catch self) = true
   /\ Demo.quiet_callback Demo.alice (VExc Demo.bad_request) 1 = (Return VNone, 2))
  /\ let r := run_in_executor self (Demo.work "bad") [] Demo.fresh_world in
     r = (Return VNone,
          {| ext := 2;
             trace := [] ++ [EvOriginalRunInExecutor (client_loop Demo.alice) (Demo.work "bad") [];
                             EvCallback Demo.alice (VExc Demo.bad_request)] |})
     /\ callback_calls (trace (snd r))
        = callback_calls [] ++ [(Demo.alice, VExc Demo.bad_request)].
Proof.
  cbv zeta. split; [repeat split|].
  apply (@C4_matched_failure_goes_to_callback Demo.demo_taxonomy Demo.demo_runtime
           (new_handler Demo.alice Demo.quiet_callback false Demo.fresh_process)
           (Demo.work "bad") [] Demo.fresh_world Demo.bad_request 1 VNone 2);
    reflexivity.
Defined.

(** C5 on a work item that succeeds. *)
Lemma C5_witness :
  let self := new_handler Demo.alice Demo.quiet_callback false Demo.fresh_process in
  Demo.demo_run_in_executor (client_loop Demo.alice) (Demo.work "sum") [] 0
  = (Return (VObj "done"), 1)
  /\ let r := run_in_executor self (Demo.work "sum") [] Demo.fresh_world in
     r = (Return (VObj "done"),
          {| ext := 1;
             trace := [] ++ [EvOriginalRunInExecutor (client_loop Demo.alice) (Demo.work "sum") []] |})
     /\ callback_calls (trace (snd r)) = callback_calls [].
Proof.
  cbv zeta. split; [reflexivity|].
  apply (@C5_success_returned_unchanged Demo.demo_taxonomy Demo.demo_runtime
           (new_handler Demo.alice Demo.quiet_callback false Demo.fresh_process)
           (Demo.work "sum") [] Demo.fresh_world (@VObj Demo.demo_taxonomy "done") 1);
    reflexivity.
Defined.

(** C9 on a [ValueError] caught under [catch_all=True] by a callback that raises. *)
Lemma C9_witness :
  let self := new_handler Demo.alice Demo.broken_callback true Demo.fresh_process in
  (Demo.demo_run_in_executor (client_loop Demo.alice) (Demo.work "value") [] 0
   = (Raise Demo.value_error, 1)
   /\ isinstance Demo.value_error FloodWait = false
   /\ isinstance_any Demo.value_error (exceptions_to_catch self) = true
   /\ Demo.broken_callback Demo.alice (VExc Demo.value_error) 1
      = (Raise Demo.callback_failure, 2))
  /\ let r := run_in_executor self (Demo.work "value") [] Demo.fresh_world in
     r = (Raise Demo.callback_failure,
          {| ext := 2;
             trace := [] ++ [EvOriginalRunInExecutor (client_loop Demo.alice) (Demo.work "value") [];
                             EvCallback Demo.alice (VExc Demo.value_error)] |})
     /\ original_hook_calls (trace (snd r)) = original_hook_calls [].
Proof.
  cbv zeta. split; [repeat split|].
  apply (@C9_callback_failure_propagates_from_dispatch Demo.demo_taxonomy Demo.demo_runtime
           (new_handler Demo.alice Demo.broken_callback true Demo.fresh_process)
           (Demo.work "value") [] Demo.fresh_world Demo.value_error 1
           Demo.callback_failure 2);
    reflexivity.
Defined.



(** C10, as stated, fails on instances that carry a [__module__] of their
    own.  The class of the first is defined in a module of the library, whose
    name contains the text, yet the hook does not invoke the callback; the
    class of the second is built in and has no [__module__], yet the hook
    invokes the callback. *)
Lemma C10_counterexample :
  let self := new_handler Demo.alice Demo.quiet_callback false Demo.fresh_process in
  (class_module (exc_class Demo.shadowed)
   = Some (AStr "pyrogram.errors.exceptions.bad_request_400")
   /\ contains "pyrogram.errors" "pyrogram.errors.exceptions.bad_request_400"
      = true
   /\ callback_calls
        (trace (snd (except_hook self false (exc_info Demo.shadowed)
                       Demo.fresh_world))) = [])
  /\ (class_module (exc_class Demo.disguised) = None
      /\ callback_calls
           (trace (snd (except_hook self false (exc_info Demo.disguised)
                          Demo.fresh_world)))
         = [(Demo.alice, VExc Demo.disguised)]).
Proof. cbv zeta. repeat split. Qed.

(** * Further properties of the class *)

Section Further.
Context `{R : Runtime}.

Lemma events_since_app {A} (w : World) (r : Outcome A * World) (evs : list Event) :
  trace (snd r) = trace w ++ evs -> events_since w r = evs.
Proof.
  unfold events_since. intros ->.
  rewrite skipn_app, skipn_all, Nat.sub_diag. reflexivity.
Qed.

(** The calls of one run of the wrapper. *)
Lemma run_in_executor_events (self : ErrorHandler) args kwargs (w : World) :
  events_since w (run_in_executor self args kwargs w)
  = EvOriginalRunInExecutor (client_loop (client self)) args kwargs ::
    match fst (original_run_in_executor (client_loop (client self)) args kwargs (ext w)) with
    | Return _ => []
    | Raise exc =>
        if negb (isinstance exc FloodWait)
           && isinstance_any exc (exceptions_to_catch self)
        then [EvCallback (client self) (VExc exc)] else []
    end.
Proof.
  apply events_since_app. rewrite run_in_executor_eq. cbv zeta.
  destruct (fst (original_run_in_executor _ args kwargs (ext w))) as [r|exc];
    [reflexivity|].
  destruct (isinstance exc FloodWait); [reflexivity|].
  destruct (isinstance_any exc (exceptions_to_catch self)); [|reflexivity].
  cbn. now rewrite <- app_assoc.
Qed.

(** The matcher tuple that [__init__] leaves on the instance. *)
Lemma isinstance_any_new_handler (c : Client) cb (catch_all : bool)
    (p : Process) (exc : Exn) :
  isinstance_any exc (exceptions_to_catch (new_handler c cb catch_all p))
  = isinstance exc RPCError || (catch_all && isinstance exc BaseException).
Proof.
  unfold new_handler, init, isinstance_any.
  destruct catch_all; cbn; now rewrite !orb_false_r.
Qed.

(** The hook on a tuple with an item at index 1. *)
Lemma except_hook_item_eq (self : ErrorHandler) (catch_all : bool)
    (args : list PyVal) (v : PyVal) (w : World) :
  nth_error args 1 = Some v ->
  except_hook self catch_all args w
  = if catch_all || protocol_origin v then
      try_except
        (_ <- call_callback self v ;; ret VNone)
        (fun e => _ <- call_original_except_hook (exc_info e) ;; ret VNone) w
    else
      match origin_test v with
      | Some _ =>
          (match fst (original_except_hook args (ext w)) with
           | Return _ => Return VNone
           | Raise e' => Raise e'
           end,
           {| ext := snd (original_except_hook args (ext w));
              trace := trace w ++ [EvOriginalExceptHook args] |})
      | None => (Raise not_iterable_error, w)
      end.
Proof.
  intros Hv. unfold except_hook, tuple_item. rewrite Hv.
  destruct catch_all; cbn [orb].
  - reflexivity.
  - unfold bind at 1. cbn [ret]. unfold protocol_origin.
    destruct (origin_test v) as [[|]|]; unfold bind at 1;
      cbn [or_type_error ret raise].
    + reflexivity.
    + unfold bind, call_original_except_hook, ret. rewrite foreign_eq.
      destruct (fst (original_except_hook _ _)); reflexivity.
    + reflexivity.
Qed.

(** The hook on a tuple without an item at index 1. *)
Lemma except_hook_short_eq (self : ErrorHandler) (catch_all : bool)
    (args : list PyVal) (w : World) :
  nth_error args 1 = None ->
  except_hook self catch_all args w
  = if catch_all then
      (match fst (original_except_hook (exc_info tuple_index_error) (ext w)) with
       | Return _ => Return VNone
       | Raise e' => Raise e'
       end,
       {| ext := snd (original_except_hook (exc_info tuple_index_error) (ext w));
          trace := trace w ++ [EvOriginalExceptHook (exc_info tuple_index_error)] |})
    else (Raise tuple_index_error, w).
Proof.
  intros Hv. unfold except_hook, tuple_item. rewrite Hv.
  destruct catch_all.
  - unfold try_except, bind, raise, call_original_except_hook, ret.
    rewrite foreign_eq.
    destruct (fst (original_except_hook _ _)); reflexivity.
  - reflexivity.
Qed.

(** ** The wrapped dispatch, beyond the claims *)

(** X1.  An instance built with [catch_all=False] catches [RPCError] only:
    when the saved primitive fails with an exception that is not an instance
    of [RPCError], the wrapped dispatch raises that same exception and the
    callback is not invoked. *)
Theorem X1_scoped_handler_lets_other_failures_through
    (c : Client) cb (p : Process)
    (args : list PyVal) (kwargs : list (string * PyVal)) (w : World)
    (exc : Exn) (x : Ext) :
  original_run_in_executor (client_loop c) args kwargs (ext w) = (Raise exc, x) ->
  isinstance exc RPCError = false ->
  run_in_executor (new_handler c cb false p) args kwargs w
  = (Raise exc,
     {| ext := x;
        trace := trace w ++ [EvOriginalRunInExecutor (client_loop c) args kwargs] |}).
Proof.
  intros Ho Hr.
  rewrite run_in_executor_eq, client_new_handler.
  cbv zeta. rewrite Ho. cbn [fst snd].
  rewrite isinstance_any_new_handler, Hr. cbn [orb andb].
  destruct (isinstance exc FloodWait); reflexivity.
Qed.

(** X2.  One run of the wrapped dispatch never calls the saved fallback
    handler, and calls the callback exactly when the saved primitive raised
    an exception that is not a [FloodWait] and matches
    [exceptions_to_catch]: then once, on [(client, exception)]. *)
Theorem X2_dispatch_calls
    (self : ErrorHandler)
    (args : list PyVal) (kwargs : list (string * PyVal)) (w : World) :
  let evs := events_since w (run_in_executor self args kwargs w) in
  original_hook_calls evs = []
  /\ callback_calls evs
     = match fst (original_run_in_executor (client_loop (client self))
                    args kwargs (ext w)) with
       | Return _ => []
       | Raise exc =>
           if negb (isinstance exc FloodWait)
              && isinstance_any exc (exceptions_to_catch self)
           then [(client self, VExc exc)] else []
       end.
Proof.
  cbv zeta. rewrite run_in_executor_events.
  destruct (fst (original_run_in_executor _ args kwargs (ext w))) as [r|exc].
  - split; reflexivity.
  - destruct (negb (isinstance exc FloodWait) && isinstance_any exc _);
      split; reflexivity.
Qed.

(** X3.  An instance built with [catch_all=True] intercepts every failure
    but [FloodWait]: when the saved primitive fails with an instance of
    [BaseException] that is not a [FloodWait] and the callback returns, the
    callback has been invoked on it and the wrapped dispatch returns [None]. *)
Theorem X3_catch_all_handler_intercepts_any_failure
    (c : Client) cb (p : Process)
    (args : list PyVal) (kwargs : list (string * PyVal)) (w : World)
    (exc : Exn) (x1 : Ext) (v : PyVal) (x2 : Ext) :
  original_run_in_executor (client_loop c) args kwargs (ext w) = (Raise exc, x1) ->
  isinstance exc BaseException = true ->
  isinstance exc FloodWait = false ->
  cb c (VExc exc) x1 = (Return v, x2) ->
  run_in_executor (new_handler c cb true p) args kwargs w
  = (Return VNone,
     {| ext := x2;
        trace := trace w ++ [EvOriginalRunInExecutor (client_loop c) args kwargs;
                             EvCallback c (VExc exc)] |}).
Proof.
  intros Ho Hb Hf Hc.
  rewrite run_in_executor_eq, client_new_handler, callback_new_handler.
  cbv zeta. rewrite Ho. cbn [fst snd].
  rewrite isinstance_any_new_handler, Hf, Hb, orb_true_r.
  cbn [ext trace]. rewrite Hc. cbn [fst snd]. now rewrite <- app_assoc.
Qed.

(** ** The patches of [__init__] on the dispatch primitive *)


(** A construction with [catch_all=False] changes the lookup on the loop of
    the client only. *)
Lemma lookup_after_scoped_init (c : Client) cb (p : Process) (l : Loop) :
  l <> client_loop c ->
  lookup_run_in_executor (snd (init c cb false p)) l
  = lookup_run_in_executor p l.
Proof.
  intros Hl. unfold lookup_run_in_executor, init.
  cbn [snd loop_run_in_executor BaseEventLoop_run_in_executor].
  destruct (Loop_eq_dec l (client_loop c)); [contradiction | reflexivity].
Qed.

(** X5.  The scoped patch of [catch_all=False] touches the loop of the client
    only: a call on any other loop behaves as before the construction. *)
Theorem X5_scoped_patch_leaves_other_loops
    (c : Client) cb (p : Process) (l : Loop)
    (args : list PyVal) (kwargs : list (string * PyVal)) :
  l <> client_loop c ->
  loop_dispatch (snd (init c cb false p)) l args kwargs
  = loop_dispatch p l args kwargs.
Proof.
  intros Hl. unfold loop_dispatch.
  now rewrite lookup_after_scoped_init.
Qed.

(** X6.  A later global patch does not undo an earlier scoped one: after
    [ErrorHandler(client1, callback1)] and then
    [ErrorHandler(client2, callback2, True)], calls on the loop of the first
    client still run the wrapper of the first instance, while
    [sys.excepthook] is the hook of the second. *)
Theorem X6_scoped_patch_survives_global_patch
    (c1 : Client) cb1 (c2 : Client) cb2 (p : Process)
    (args : list PyVal) (kwargs : list (string * PyVal)) :
  let p2 := snd (init c2 cb2 true (snd (init c1 cb1 false p))) in
  loop_dispatch p2 (client_loop c1) args kwargs
  = run_in_executor (new_handler c1 cb1 false p) args kwargs
  /\ sys_excepthook p2 = PartialExceptHook (new_handler c2 cb2 true p) true.
Proof.
  cbv zeta. split; [|reflexivity].
  unfold loop_dispatch, lookup_run_in_executor, new_handler, init.
  cbn [snd fst loop_run_in_executor BaseEventLoop_run_in_executor].
  destruct (Loop_eq_dec (client_loop c1) (client_loop c1));
    [reflexivity | contradiction].
Qed.

(** X7.  A later scoped patch does not undo an earlier global one: after
    [ErrorHandler(client1, callback1, True)] and then
    [ErrorHandler(client2, callback2)], calls on a loop that is not the
    second client's and has no attribute of its own still run the wrapper of
    the first instance, while [sys.excepthook] is the hook of the second. *)
Theorem X7_global_patch_survives_scoped_patch
    (c1 : Client) cb1 (c2 : Client) cb2 (p : Process) (l : Loop)
    (args : list PyVal) (kwargs : list (string * PyVal)) :
  loop_run_in_executor p l = None ->
  l <> client_loop c2 ->
  let p2 := snd (init c2 cb2 false (snd (init c1 cb1 true p))) in
  loop_dispatch p2 l args kwargs
  = run_in_executor (new_handler c1 cb1 true p) args kwargs
  /\ sys_excepthook p2 = PartialExceptHook (new_handler c2 cb2 false p) false.
Proof.
  intros Hl Hn. cbv zeta. split; [|reflexivity].
  unfold loop_dispatch at 1. rewrite lookup_after_scoped_init by exact Hn.
  apply (@loop_dispatch_after_init _ _ c1 cb1 true p l args kwargs Hl).
Qed.

(** ** The fallback hook, beyond the claims *)

(** The calls of one run of the hook, on any tuple of arguments. *)
Lemma except_hook_events (self : ErrorHandler) (catch_all : bool)
    (args : list PyVal) (w : World) :
  events_since w (except_hook self catch_all args w)
  = match nth_error args 1 with
    | Some v =>
        if catch_all || protocol_origin v
        then guarded_callback_events self v (ext w)
        else match origin_test v with
             | Some _ => [EvOriginalExceptHook args]
             | None => []
             end
    | None =>
        if catch_all then [EvOriginalExceptHook (exc_info tuple_index_error)]
        else []
    end.
Proof.
  apply events_since_app.
  destruct (nth_error args 1) as [v|] eqn:Hv.
  - rewrite (except_hook_item_eq self catch_all args w Hv).
    destruct (catch_all || protocol_origin v).
    + apply guarded_callback_trace.
    + destruct (origin_test v); cbn [snd trace]; [reflexivity|].
      now rewrite app_nil_r.
  - rewrite (except_hook_short_eq self catch_all args w Hv).
    destruct catch_all; cbn [snd trace]; [reflexivity|].
    now rewrite app_nil_r.
Qed.

(** X8.  The hook on fewer than two arguments: [args[1]] raises
    [IndexError].  Under [catch_all=True] the lookup sits inside the [try],
    so the error is caught and reported to the saved handler, on its class,
    the instance and the traceback the interpreter gave it, and the callback
    is not invoked; under [catch_all=False] it sits outside, and the hook
    raises the [IndexError] without calling anything. *)
Theorem X8_hook_on_short_arguments
    (self : ErrorHandler) (args : list PyVal) (w : World) :
  length args < 2 ->
  except_hook self true args w
  = (match fst (original_except_hook (exc_info tuple_index_error) (ext w)) with
     | Return _ => Return VNone
     | Raise e' => Raise e'
     end,
     {| ext := snd (original_except_hook (exc_info tuple_index_error) (ext w));
        trace := trace w ++ [EvOriginalExceptHook (exc_info tuple_index_error)] |})
  /\ exc_info tuple_index_error
     = [VClass IndexError; VExc tuple_index_error;
        VObj (raised_traceback IndexError)]
  /\ except_hook self false args w = (Raise tuple_index_error, w).
Proof.
  intros Hlen.
  assert (Hv : nth_error args 1 = None) by (apply nth_error_None; lia).
  split; [|split].
  - exact (except_hook_short_eq self true args w Hv).
  - reflexivity.
  - exact (except_hook_short_eq self false args w Hv).
Qed.

(** X9.  When the hook invokes the callback and the callback returns, the
    exception is swallowed: the saved fallback handler is not called, and the
    hook returns [None]. *)
Theorem X9_hook_swallows_on_callback_success
    (self : ErrorHandler) (catch_all : bool) (t v tb : PyVal) (w : World)
    (a : PyVal) (x : Ext) :
  catch_all || protocol_origin v = true ->
  callback self (client self) v (ext w) = (Return a, x) ->
  let r := except_hook self catch_all [t; v; tb] w in
  r = (Return VNone,
       {| ext := x; trace := trace w ++ [EvCallback (client self) v] |})
  /\ original_hook_calls (events_since w r) = [].
Proof.
  intros Hg Hc. cbv zeta. rewrite except_hook_events.
  cbn [nth_error]. rewrite except_hook_eq, Hg, guarded_callback_eq.
  unfold guarded_callback_events. cbv zeta. rewrite Hc. split; reflexivity.
Qed.


(** X11.  The exemption of [FloodWait] belongs to the dispatch path alone.
    For a [FloodWait] whose module name passes the origin test, and with
    either flag: the wrapped dispatch re-raises it without invoking the
    callback, while the hook hands the same exception to the callback. *)
Theorem X11_flood_wait_is_not_exempt_in_hook
    (c : Client) cb (catch_all : bool) (p : Process)
    (args : list PyVal) (kwargs : list (string * PyVal))
    (t : PyVal) (exc : Exn) (tb : PyVal) (w : World) (x : Ext) :
  original_run_in_executor (client_loop c) args kwargs (ext w) = (Raise exc, x) ->
  isinstance exc FloodWait = true ->
  protocol_origin (VExc exc) = true ->
  let self := new_handler c cb catch_all p in
  callback_calls (events_since w (run_in_executor self args kwargs w)) = []
  /\ fst (run_in_executor self args kwargs w) = Raise exc
  /\ callback_calls
       (events_since w (except_hook self catch_all [t; VExc exc; tb] w))
     = [(c, VExc exc)].
Proof.
  intros Ho Hf Hp. cbv zeta. repeat split.
  - rewrite run_in_executor_events, client_new_handler, Ho. cbn [fst].
    rewrite Hf. reflexivity.
  - rewrite run_in_executor_eq, client_new_handler. cbv zeta.
    rewrite Ho. cbn [fst]. rewrite Hf. reflexivity.
  - rewrite except_hook_events. cbn [nth_error]. rewrite Hp, orb_true_r.
    rewrite callback_calls_guarded, client_new_handler. reflexivity.
Qed.


(** X13.  In the hook bound to [catch_all=False], when what is stored under
    [__module__] is neither a string nor an object with a membership test,
    the origin test raises [TypeError]: the hook raises it, and calls neither
    the callback nor the saved fallback handler. *)
Theorem X13_hook_origin_test_type_error
    (self : ErrorHandler) (t : PyVal) (e : Exn) (tb : PyVal) (w : World)
    (o : Obj) :
  match exc_dict_module e with
  | Some a => a = AOther o
  | None => class_module (exc_class e) = Some (AOther o)
  end ->
  obj_contains o "pyrogram.errors" = None ->
  except_hook self false [t; VExc e; tb] w = (Raise not_iterable_error, w)
  /\ exc_class not_iterable_error = TypeError.
Proof.
  intros Hm Ho. split; [|reflexivity].
  assert (Ht : origin_test (VExc e) = None).
  { unfold origin_test, getattr_module.
    destruct (exc_dict_module e) as [a|].
    - subst a. exact Ho.
    - rewrite Hm. exact Ho. }
  rewrite except_hook_eq. cbn [orb]. unfold protocol_origin. rewrite Ht.
  reflexivity.
Qed.

End Further.

(** * The further properties on the sample process *)

(** X1 on a [ValueError] under the scoped patch. *)
Lemma X1_witness :
  (Demo.demo_run_in_executor (client_loop Demo.alice) (Demo.work "value") [] 0
   = (Raise Demo.value_error, 1)
   /\ isinstance Demo.value_error RPCError = false)
  /\ run_in_executor
       (new_handler Demo.alice Demo.quiet_callback false Demo.fresh_process)
       (Demo.work "value") [] Demo.fresh_world
     = (Raise Demo.value_error,
        {| ext := 1;
           trace := [] ++ [EvOriginalRunInExecutor (client_loop Demo.alice)
                             (Demo.work "value") []] |}).
Proof.
  split; [split; reflexivity|].
  apply (@X1_scoped_handler_lets_other_failures_through
           Demo.demo_taxonomy Demo.demo_runtime Demo.alice Demo.quiet_callback
           Demo.fresh_process (Demo.work "value") [] Demo.fresh_world
           Demo.value_error 1); reflexivity.
Defined.

(** X3 on a [ValueError] under the global patch. *)
Lemma X3_witness :
  (Demo.demo_run_in_executor (client_loop Demo.alice) (Demo.work "value") [] 0
   = (Raise Demo.value_error, 1)
   /\ isinstance Demo.value_error BaseException = true
   /\ isinstance Demo.value_error FloodWait = false
   /\ Demo.quiet_callback Demo.alice (VExc Demo.value_error) 1 = (Return VNone, 2))
  /\ run_in_executor
       (new_handler Demo.alice Demo.quiet_callback true Demo.fresh_process)
       (Demo.work "value") [] Demo.fresh_world
     = (Return VNone,
        {| ext := 2;
           trace := [] ++ [EvOriginalRunInExecutor (client_loop Demo.alice)
                             (Demo.work "value") [];
                           EvCallback Demo.alice (VExc Demo.value_error)] |}).
Proof.
  split; [repeat split|].
  apply (@X3_catch_all_handler_intercepts_any_failure
           Demo.demo_taxonomy Demo.demo_runtime Demo.alice Demo.quiet_callback
           Demo.fresh_process (Demo.work "value") [] Demo.fresh_world
           Demo.value_error 1 (@VNone Demo.demo_taxonomy) 2); reflexivity.
Defined.


(** X5 on a loop that is not the client's. *)
Lemma X5_witness :
  Demo.other_loop <> client_loop Demo.alice
  /\ loop_dispatch
       (snd (init Demo.alice Demo.quiet_callback false Demo.fresh_process))
       Demo.other_loop (Demo.work "bad") []
     = loop_dispatch Demo.fresh_process Demo.other_loop (Demo.work "bad") [].
Proof.
  assert (H : Demo.other_loop <> client_loop Demo.alice)
    by (vm_compute; lia).
  split; [exact H|].
  exact (@X5_scoped_patch_leaves_other_loops
           Demo.demo_taxonomy Demo.demo_runtime Demo.alice Demo.quiet_callback
           Demo.fresh_process Demo.other_loop (Demo.work "bad") [] H).
Defined.

(** X7 with one client registering twice, the second time with a callback
    that raises. *)
Lemma X7_witness :
  (loop_run_in_executor Demo.fresh_process Demo.other_loop = None
   /\ Demo.other_loop <> client_loop Demo.alice)
  /\ let p2 := snd (init Demo.alice Demo.broken_callback false
                      (snd (init Demo.alice Demo.quiet_callback true
                              Demo.fresh_process))) in
     loop_dispatch p2 Demo.other_loop (Demo.work "bad") []
     = run_in_executor
         (new_handler Demo.alice Demo.quiet_callback true Demo.fresh_process)
         (Demo.work "bad") []
     /\ sys_excepthook p2
        = PartialExceptHook
            (new_handler Demo.alice Demo.broken_callback false Demo.fresh_process)
            false.
Proof.
  assert (H : Demo.other_loop <> client_loop Demo.alice)
    by (vm_compute; lia).
  split; [split; [reflexivity | exact H]|].
  exact (@X7_global_patch_survives_scoped_patch
           Demo.demo_taxonomy Demo.demo_runtime
           Demo.alice Demo.quiet_callback Demo.alice Demo.broken_callback
           Demo.fresh_process Demo.other_loop (Demo.work "bad") []
           eq_refl H).
Defined.

(** X8 on the empty tuple. *)
Lemma X8_witness :
  let self := new_handler Demo.alice Demo.quiet_callback true Demo.fresh_process in
  length (@nil PyVal) < 2
  /\ except_hook self true [] Demo.fresh_world
     = (Return VNone,
        {| ext := 1;
           trace := [] ++ [EvOriginalExceptHook (exc_info tuple_index_error)] |})
  /\ exc_info tuple_index_error
     = [VClass Demo.KIndexError; VExc tuple_index_error; VObj "tb-except-hook"]
  /\ except_hook self false [] Demo.fresh_world
     = (Raise tuple_index_error, Demo.fresh_world).
Proof.
  cbv zeta. split; [simpl; lia|].
  apply (@X8_hook_on_short_arguments
           Demo.demo_taxonomy Demo.demo_runtime
           (new_handler Demo.alice Demo.quiet_callback true Demo.fresh_process)
           [] Demo.fresh_world).
  simpl; lia.
Defined.

(** X9 on a [BadRequest] and a callback that returns, under the scoped hook. *)
Lemma X9_witness :
  let self := new_handler Demo.alice Demo.quiet_callback false Demo.fresh_process in
  (false || protocol_origin (VExc Demo.bad_request) = true
   /\ Demo.quiet_callback Demo.alice (VExc Demo.bad_request) 0 = (Return VNone, 1))
  /\ let r := except_hook self false (exc_info Demo.bad_request) Demo.fresh_world in
     r = (Return VNone,
          {| ext := 1;
             trace := [] ++ [EvCallback Demo.alice (VExc Demo.bad_request)] |})
     /\ original_hook_calls (events_since Demo.fresh_world r) = [].
Proof.
  cbv zeta. split; [split; reflexivity|].
  apply (@X9_hook_swallows_on_callback_success
           Demo.demo_taxonomy Demo.demo_runtime
           (new_handler Demo.alice Demo.quiet_callback false Demo.fresh_process)
           false (@VClass Demo.demo_taxonomy Demo.KBadRequest)
           (VExc Demo.bad_request) (@VObj Demo.demo_taxonomy "tb-bad")
           Demo.fresh_world (@VNone Demo.demo_taxonomy) 1); reflexivity.
Defined.

(** X11 on the [FloodWait] of the sample process, under the scoped patch. *)
Lemma X11_witness :
  let self := new_handler Demo.alice Demo.quiet_callback false Demo.fresh_process in
  (Demo.demo_run_in_executor (client_loop Demo.alice) (Demo.work "flood") [] 0
   = (Raise Demo.flood_wait, 1)
   /\ isinstance Demo.flood_wait FloodWait = true
   /\ protocol_origin (VExc Demo.flood_wait) = true)
  /\ callback_calls
       (events_since Demo.fresh_world
          (run_in_executor self (Demo.work "flood") [] Demo.fresh_world)) = []
  /\ fst (run_in_executor self (Demo.work "flood") [] Demo.fresh_world)
     = Raise Demo.flood_wait
  /\ callback_calls
       (events_since Demo.fresh_world
          (except_hook self false (exc_info Demo.flood_wait) Demo.fresh_world))
     = [(Demo.alice, VExc Demo.flood_wait)].
Proof.
  cbv zeta. split; [repeat split|].
  apply (@X11_flood_wait_is_not_exempt_in_hook
           Demo.demo_taxonomy Demo.demo_runtime Demo.alice Demo.quiet_callback
           false Demo.fresh_process (Demo.work "flood") []
           (@VClass Demo.demo_taxonomy Demo.KFloodWait) Demo.flood_wait
           (@VObj Demo.demo_taxonomy "tb-flood") Demo.fresh_world 1);
    reflexivity.
Defined.

(** X13 on an instance whose [__module__] is a number. *)
Lemma X13_witness :
  let self := new_handler Demo.alice Demo.quiet_callback false Demo.fresh_process in
  (match exc_dict_module Demo.numbered with
   | Some a => a = AOther "42"
   | None => class_module (exc_class Demo.numbered) = Some (AOther "42")
   end
   /\ obj_contains "42" "pyrogram.errors" = None)
  /\ except_hook self false (exc_info Demo.numbered) Demo.fresh_world
     = (Raise not_iterable_error, Demo.fresh_world)
  /\ exc_class not_iterable_error = TypeError.
Proof.
  cbv zeta. split; [split; reflexivity|].
  apply (@X13_hook_origin_test_type_error
           Demo.demo_taxonomy Demo.demo_runtime
           (new_handler Demo.alice Demo.quiet_callback false Demo.fresh_process)
           (@VClass Demo.demo_taxonomy Demo.KValueError) Demo.numbered
           (@VObj Demo.demo_taxonomy "tb-numbered") Demo.fresh_world "42");
    reflexivity.
Defined.
